(** * Sentry authorization wrappers, restricted queryset, sudo middleware

    A shallow embedding of

    - [src/sentry/api/decorators.py]  ([is_considered_sudo], [sudo_required],
      [email_verification_required]),
    - [src/sentry/middleware/sudo.py] ([SudoMiddleware.has_sudo_privileges]),
    - [src/sentry/db/models/manager/base_query_set.py] ([BaseQuerySet]),

    together with a model of the tag-values endpoint exercised by
    [tests/sentry/api/endpoints/test_group_tagkey_values.py].

    Python values are modelled by what the code observes of them: a request by
    the result of [request.is_sudo()], its [auth] object and its [user]; a
    view by a function from its arguments and the state of the world to an
    outcome (a returned value or a raised exception) and a new state. *)

From Stdlib Require Import String List Bool ZArith Lia Permutation Sorted.
From stdpp Require Import base option list gmap strings pretty.

Import ListNotations.
Local Open Scope string_scope.
Local Open Scope list_scope.

(** ** Python run-time: exceptions and outcomes *)

(** [sentry.models.User], as far as the code under study reads it:
    the attribute [is_authenticated] and the [password] column ([None] when
    the attribute is absent or null). *)
Record User : Type := mkUser {
  user_pk : Z;
  is_authenticated : bool;
  password : option string
}.

(** The exceptions that occur: the two authorization errors of
    [sentry.api.exceptions] (each built from [request.user]), the builtin
    [NotImplementedError] with its message, and any other exception, named by
    its class. *)
Inductive Exception : Type :=
| SudoRequired (u : User)
| EmailVerificationRequired (u : User)
| NotImplementedError (msg : string)
| OtherException (cls : string).

(** A call either returns a value or raises. *)
Inductive outcome (A : Type) : Type :=
| Return (a : A)
| Raise (e : Exception).
Arguments Return {A} a.
Arguments Raise {A} e.

Definition is_raise {A} (o : outcome A) : bool :=
  match o with Raise _ => true | Return _ => false end.

(** The condition evaluated without raising, and to a true value. *)
Definition returns_true (o : outcome bool) : bool :=
  match o with Return b => b | Raise _ => false end.

(** Truthiness of a string-or-None attribute: [None] and the empty string are
    falsy. *)
Definition truthy_str (p : option string) : bool :=
  match p with
  | None => false
  | Some s => negb (String.eqb s "")
  end.

(** ** Requests *)

(** [request.auth]: nothing, an [ApiKey] instance, an [ApiToken] instance, or
    an object of some other class. *)
Inductive Auth : Type :=
| AuthNone
| AuthApiKey (key : string)
| AuthApiToken (token : string)
| AuthOther (cls : string).

Definition isinstance_ApiKey (a : Auth) : bool :=
  match a with AuthApiKey _ => true | _ => false end.

Definition isinstance_ApiToken (a : Auth) : bool :=
  match a with AuthApiToken _ => true | _ => false end.

(** A request: [is_sudo] is the value [request.is_sudo()] yields. *)
Record Request : Type := mkRequest {
  is_sudo : bool;
  auth : Auth;
  user : User
}.

(** [QuerySet.exists()] on a result set given as the list of its rows. *)
Definition exists_ {A} (qs : list A) : bool :=
  match qs with
  | [] => false
  | _ :: _ => true
  end.

(** A verified e-mail row of [user.get_verified_emails()]. *)
Record UserEmail : Type := mkUserEmail { email_address : string }.

(** ** [sentry/api/decorators.py] *)

Section Decorators.
(** [W] is the state of the world a view may read and change (database,
    session, outbox); [ViewSelf], [PyVal] and [Response] are the endpoint
    instance, the values passed in [*args] / [**kwargs], and what a view
    returns. *)
Context {W ViewSelf PyVal Response : Type}.

(** [sentry.utils.auth.is_user_password_usable] and
    [User.get_verified_emails], a method of [sentry.models.User], live
    outside the files under study. *)
Variable is_user_password_usable : User -> bool.
Variable get_verified_emails : User -> list UserEmail.

Definition Args : Type := list PyVal.
Definition Kwargs : Type := list (string * PyVal).

(** A view method [func(self, request, *args, **kwargs)]. *)
Definition View (W' : Type) : Type :=
  ViewSelf -> Request -> Args -> Kwargs -> W' -> outcome Response * W'.

(** [is_considered_sudo], lines 8-18. Python's [or] binds weaker than
    [and], which binds weaker than [not]; [||] and [&&] do the same. *)
Definition is_considered_sudo (request : Request) : bool :=
  let user := user request in
  is_sudo request
  || isinstance_ApiKey (auth request)
  || isinstance_ApiToken (auth request)
  || is_authenticated user
  && negb (is_user_password_usable user).

(** [sudo_required], lines 21-32. *)
Definition sudo_required {W'} (func : View W') : View W' :=
  fun self request args kwargs w =>
    if negb (is_considered_sudo request) then
      (Raise (SudoRequired (user request)), w)
    else
      func self request args kwargs w.

(** The call [user.get_verified_emails()]. The user of an unauthenticated
    request is Django's [AnonymousUser], which has no such method: looking
    the attribute up raises [AttributeError]. Line 38 makes the call with no
    guard on [user.is_authenticated] (compare line 16). *)
Definition call_get_verified_emails (u : User) : outcome (list UserEmail) :=
  if is_authenticated u then Return (get_verified_emails u)
  else Raise (OtherException "AttributeError").

(** The condition of line 38,
    [request.user.get_verified_emails().exists()]. *)
Definition has_verified_email (request : Request) : outcome bool :=
  match call_get_verified_emails (user request) with
  | Return emails => Return (exists_ emails)
  | Raise e => Raise e
  end.

(** [email_verification_required], lines 35-42. An exception raised while
    the condition is evaluated leaves the wrapper as it is. *)
Definition email_verification_required {W'} (func : View W') : View W' :=
  fun self request args kwargs w =>
    match has_verified_email request with
    | Raise e => (Raise e, w)
    | Return verified =>
        if negb verified then
          (Raise (EmailVerificationRequired (user request)), w)
        else
          func self request args kwargs w
    end.

(** *** Observing the calls a wrapper makes

    To count invocations of the wrapped view, the view is run over a world
    extended with the log of the calls it received. *)
Record Call : Type := mkCall {
  call_self : ViewSelf;
  call_request : Request;
  call_args : Args;
  call_kwargs : Kwargs
}.

Definition traced (func : View W) : View (W * list Call) :=
  fun self request args kwargs wl =>
    let '(o, w') := func self request args kwargs (fst wl) in
    (o, (w', snd wl ++ [mkCall self request args kwargs])).

(** The predicate of the claim on [is_considered_sudo], with the grouping
    written out. *)
Definition is_considered_sudo_grouped (request : Request) : bool :=
  orb (orb (orb (is_sudo request) (isinstance_ApiKey (auth request)))
           (isinstance_ApiToken (auth request)))
      (andb (is_authenticated (user request))
            (negb (is_user_password_usable (user request)))).

(** The other grouping, [(a or b or c or d) and not e], for contrast. *)
Definition is_considered_sudo_misgrouped (request : Request) : bool :=
  andb (orb (orb (orb (is_sudo request) (isinstance_ApiKey (auth request)))
                 (isinstance_ApiToken (auth request)))
            (is_authenticated (user request)))
       (negb (is_user_password_usable (user request))).
End Decorators.

(** ** [sentry/middleware/sudo.py] *)

Module SudoMiddleware.
Section Middleware.
Context {W MiddlewareSelf : Type}.

(** [sudo.middleware.SudoMiddleware.has_sudo_privileges], the method of the
    base class reached through [super()]. *)
Variable BaseSudoMiddleware_has_sudo_privileges :
  MiddlewareSelf -> Request -> W -> outcome bool * W.

(** [SudoMiddleware.has_sudo_privileges], lines 5-11. *)
Definition has_sudo_privileges (self : MiddlewareSelf) (request : Request)
    (w : W) : outcome bool * W :=
  let user := user request in
  if is_authenticated user && negb (truthy_str (password user)) then
    (Return true, w)
  else
    BaseSudoMiddleware_has_sudo_privileges self request w.
End Middleware.
End SudoMiddleware.

(** ** [sentry/db/models/manager/base_query_set.py] *)

Module BaseQuerySet.
Section QuerySet.
Context {W QS PyVal Result : Type}.

(** A method [m(self, *args, **kwargs)] of a queryset class. *)
Definition Method : Type :=
  QS -> list PyVal -> list (string * PyVal) -> W -> outcome Result * W.

(** Attribute lookup on [django.db.models.QuerySet], the base class. *)
Variable QuerySet_getattr : string -> option Method.

Definition message : string := "Use ``values_list`` instead [performance].".

(** [defer], lines 10-11. *)
Definition defer : Method :=
  fun self args kwargs w => (Raise (NotImplementedError message), w).

(** [only], lines 13-18. *)
Definition only : Method :=
  fun self args kwargs w => (Raise (NotImplementedError message), w).

(** The class body binds two names; [values] is commented out. *)
Definition class_dict : gmap string Method :=
  {[ "defer" := defer; "only" := only ]}.

(** Method resolution: the class's own dictionary, then the base class. *)
Definition getattr (name : string) : option Method :=
  match class_dict !! name with
  | Some m => Some m
  | None => QuerySet_getattr name
  end.
End QuerySet.
End BaseQuerySet.

(** ** The tag-values endpoint
    [GET /api/0/issues/{group_id}/tags/{key}/values/]

    The endpoint is exercised by
    [tests/sentry/api/endpoints/test_group_tagkey_values.py]; its
    implementation, the event store and the tag aggregation are not among the
    files under study. *)

Module GroupTagKeyValues.

(** Modelled from the spec: the structured user context of a stored event
    (the [user] entry of the event payload in the tests); the event store
    itself is missing. *)
Record EventUser : Type := mkEventUser {
  eu_id : N;
  eu_email : string;
  eu_username : string;
  eu_ip_address : string
}.

(** Modelled from the spec: a stored event, with the group (issue) it
    belongs to, its tags, its optional user context and its timestamp; the
    event model is missing. *)
Record Event : Type := mkEvent {
  event_group : N;
  event_tags : list (string * string);
  event_user : option EventUser;
  event_timestamp : Z
}.

(** Modelled from the spec: one object of the returned JSON array,
    "containing at least a [value] field (and [email] for the synthetic
    [user] tag)"; the serializer is missing. *)
Record TagValue : Type := mkTagValue {
  tv_value : string;
  tv_email : option string;
  tv_count : nat;
  tv_last_seen : Z
}.

Record ApiResponse : Type := mkApiResponse {
  status_code : nat;
  data : list TagValue
}.

(** Modelled from the spec: the value of the synthetic [user] tag "follows
    the form [id:<user_id>]"; the tag extraction at ingestion is missing. *)
Definition user_tag_value (u : EventUser) : string :=
  "id:" ++ pretty (eu_id u).

(** Modelled from the spec: the tags an event is indexed under, the
    synthetic [user] tag (with the user's email) first, then the stored
    tags; the ingestion pipeline is missing. *)
Definition indexed_tags (e : Event) : list (string * (string * option string)) :=
  match event_user e with
  | Some u => [("user", (user_tag_value u, Some (eu_email u)))]
  | None => []
  end
  ++ map (fun kv => (fst kv, (snd kv, None))) (event_tags e).

Fixpoint assoc {A} (key : string) (l : list (string * A)) : option A :=
  match l with
  | [] => None
  | (k, v) :: l' => if String.eqb k key then Some v else assoc key l'
  end.

Definition events_of_group (gid : N) (store : list Event) : list Event :=
  filter (fun e => N.eqb (event_group e) gid) store.

(** One occurrence of a tag value: the value, the email and the time. *)
Definition occurrence (key : string) (e : Event)
    : option (string * option string * Z) :=
  match assoc key (indexed_tags e) with
  | Some (v, em) => Some (v, em, event_timestamp e)
  | None => None
  end.

Definition occurrences (key : string) (es : list Event)
    : list (string * option string * Z) :=
  omap (occurrence key) es.

(** Modelled from the spec: counting the occurrences of each distinct value
    ("occurrence count") and keeping the latest time it was seen
    ("recency"); the tag-aggregation query layer is missing. *)
Fixpoint record_occurrence (o : string * option string * Z)
    (acc : list TagValue) : list TagValue :=
  let '(v, em, ts) := o in
  match acc with
  | [] => [mkTagValue v em 1 ts]
  | r :: acc' =>
      if String.eqb (tv_value r) v then
        mkTagValue (tv_value r) (tv_email r) (S (tv_count r))
                   (Z.max (tv_last_seen r) ts) :: acc'
      else r :: record_occurrence o acc'
  end.

Definition aggregate (occs : list (string * option string * Z))
    : list TagValue :=
  fold_left (fun acc o => record_occurrence o acc) occs [].

(** Stable insertion sort: [x] goes before the first [y] it may precede. *)
Fixpoint insert_by {A} (precedes : A -> A -> bool) (x : A) (l : list A)
    : list A :=
  match l with
  | [] => [x]
  | y :: l' => if precedes x y then x :: l else y :: insert_by precedes x l'
  end.

Definition sort_by {A} (precedes : A -> A -> bool) (l : list A) : list A :=
  fold_right (insert_by precedes) [] l.

(** Descending occurrence count. *)
Definition by_count (x y : TagValue) : bool :=
  Nat.leb (tv_count y) (tv_count x).

(** Most recently seen first. *)
Definition by_recency (x y : TagValue) : bool :=
  Z.leb (tv_last_seen y) (tv_last_seen x).

(** Modelled from the spec: the endpoint, "returning a JSON array of objects
    ... ordered by recency by default or by descending occurrence count when
    [sort=count] is requested"; the endpoint's implementation is missing.
    [sort] is the value of the query parameter, if present. *)
Definition get (store : list Event) (group_id : N) (key : string)
    (sort : option string) : ApiResponse :=
  let values := aggregate (occurrences key (events_of_group group_id store)) in
  let precedes :=
    match sort with
    | Some s => if String.eqb s "count" then by_count else by_recency
    | None => by_recency
    end in
  mkApiResponse 200 (sort_by precedes values).

End GroupTagKeyValues.

(** ** Concrete data of the tests *)

Module TestData.
Import GroupTagKeyValues.

Definition ts0 : Z := 1000.

(** [test_simple] *)
Definition simple_event : Event :=
  mkEvent 1 [("foo", "bar")] None ts0.

Definition foo_user : EventUser :=
  mkEventUser 1 "foo@example.com" "foo" "127.0.0.1".

Definition bar_user : EventUser :=
  mkEventUser 2 "bar@example.com" "bar" "127.0.0.1".

(** [test_user_tag] and [test_count_sort] *)
Definition foo_event : Event := mkEvent 1 [] (Some foo_user) ts0.
Definition bar_event : Event := mkEvent 1 [] (Some bar_user) ts0.

(** Accounts and requests. A stand-in for [is_user_password_usable]: the
    password is set and does not carry Django's unusable-password mark. *)
Definition password_usable (u : User) : bool :=
  match password u with
  | Some s => negb (String.eqb s "") && negb (String.prefix "!" s)
  | None => false
  end.

Definition verified_emails (u : User) : list UserEmail :=
  if Z.eqb (user_pk u) 1 then [mkUserEmail "alice@example.com"] else [].

Definition anonymous : User := mkUser 0 false None.
Definition alice : User := mkUser 1 true (Some "pbkdf2_sha256$secret").
Definition bob : User := mkUser 2 true (Some "pbkdf2_sha256$hidden").
Definition sso_user : User := mkUser 3 true (Some "").

Definition plain_request : Request := mkRequest false AuthNone alice.
Definition sudo_request : Request := mkRequest true AuthNone alice.
Definition token_request : Request := mkRequest false (AuthApiToken "t0k3n") bob.
Definition bob_request : Request := mkRequest true AuthNone bob.
Definition sso_request : Request := mkRequest false AuthNone sso_user.
Definition anonymous_request : Request := mkRequest false AuthNone anonymous.

(** Views over a world that counts the writes made: one that answers, one
    that raises [SudoRequired] on its own. *)
Definition ok_view : @View unit Z string nat :=
  fun self request args kwargs n => (Return "ok", S n).

Definition strict_view : @View unit Z string nat :=
  fun self request args kwargs n => (Raise (SudoRequired (user request)), n).

(** A base middleware that reads the sudo flag, and a base queryset class
    with [values] and [values_list]. *)
Definition base_has_sudo_privileges (self : unit) (request : Request) (n : nat)
    : outcome bool * nat :=
  (Return (is_sudo request), n).

Definition base_getattr (name : string)
    : option (@BaseQuerySet.Method nat unit Z string) :=
  if String.eqb name "values" then Some (fun _ _ _ n => (Return "rows", n))
  else if String.eqb name "values_list" then
    Some (fun _ _ _ n => (Return "tuples", n))
  else if String.eqb name "defer" then
    Some (fun _ _ _ n => (Return "deferred", n))
  else None.

(** A base middleware that fails after writing, and a base class that has
    neither [defer] nor [only]. *)
Definition failing_has_sudo_privileges (self : unit) (request : Request)
    (n : nat) : outcome bool * nat :=
  (Raise (OtherException "SuspiciousOperation"), S n).

Definition bare_getattr (name : string)
    : option (@BaseQuerySet.Method nat unit Z string) :=
  None.
End TestData.

(** * Properties *)

(** ** The decorators *)

Section DecoratorFacts.
Context {W ViewSelf PyVal Response : Type}.
Variable is_user_password_usable : User -> bool.
Variable get_verified_emails : User -> list UserEmail.

Local Abbreviation View := (@View ViewSelf PyVal Response).
Local Abbreviation Call := (@Call ViewSelf PyVal).
Local Abbreviation is_considered_sudo := (is_considered_sudo is_user_password_usable).
Local Abbreviation sudo_required := (sudo_required is_user_password_usable).
Local Abbreviation email_verification_required :=
  (email_verification_required get_verified_emails).
Local Abbreviation has_verified_email :=
  (has_verified_email get_verified_emails).

Implicit Types (request : Request) (self : ViewSelf).

(** *** The two predicates *)

Lemma is_considered_sudo_false_iff request :
  is_considered_sudo request = false <->
    is_sudo request = false
    /\ isinstance_ApiKey (auth request) = false
    /\ isinstance_ApiToken (auth request) = false
    /\ ~ (is_authenticated (user request) = true
          /\ is_user_password_usable (user request) = false).
Proof.
  unfold is_considered_sudo.
  destruct (is_sudo request), (isinstance_ApiKey (auth request)),
    (isinstance_ApiToken (auth request)), (is_authenticated (user request)),
    (is_user_password_usable (user request)); cbn; intuition congruence.
Qed.

Lemma exists_false_iff {A} (qs : list A) : exists_ qs = false <-> qs = [].
Proof. destruct qs; cbn; split; congruence. Qed.

Lemma exists_true_iff {A} (qs : list A) : exists_ qs = true <-> qs <> [].
Proof. destruct qs; cbn; split; congruence. Qed.

(** *** One step of each wrapper *)

Lemma sudo_required_refused {W'} (func : View W') self request args kwargs w :
  is_considered_sudo request = false ->
  sudo_required func self request args kwargs w
  = (Raise (SudoRequired (user request)), w).
Proof. intros H. unfold sudo_required. now rewrite H. Qed.

Lemma sudo_required_forwards {W'} (func : View W') self request args kwargs w :
  is_considered_sudo request = true ->
  sudo_required func self request args kwargs w
  = func self request args kwargs w.
Proof. intros H. unfold sudo_required. now rewrite H. Qed.

Lemma has_verified_email_returns request (b : bool) :
  has_verified_email request = Return b <->
    is_authenticated (user request) = true
    /\ exists_ (get_verified_emails (user request)) = b.
Proof.
  unfold has_verified_email, call_get_verified_emails.
  destruct (is_authenticated (user request)); split.
  - intros [= <-]. now split.
  - intros [_ <-]. reflexivity.
  - discriminate.
  - intros [[=] _].
Qed.

Lemma has_verified_email_raises request e :
  has_verified_email request = Raise e <->
    is_authenticated (user request) = false
    /\ e = OtherException "AttributeError".
Proof.
  unfold has_verified_email, call_get_verified_emails.
  destruct (is_authenticated (user request)); split.
  - discriminate.
  - intros [[=] _].
  - intros [= <-]. now split.
  - intros [_ ->]. reflexivity.
Qed.

Lemma email_verification_required_refused {W'}
    (func : View W') self request args kwargs w :
  has_verified_email request = Return false ->
  email_verification_required func self request args kwargs w
  = (Raise (EmailVerificationRequired (user request)), w).
Proof.
  intros H. unfold email_verification_required. now rewrite H.
Qed.

Lemma email_verification_required_forwards {W'}
    (func : View W') self request args kwargs w :
  has_verified_email request = Return true ->
  email_verification_required func self request args kwargs w
  = func self request args kwargs w.
Proof.
  intros H. unfold email_verification_required. now rewrite H.
Qed.

Lemma email_verification_required_check_raises {W'}
    (func : View W') self request args kwargs w e :
  has_verified_email request = Raise e ->
  email_verification_required func self request args kwargs w = (Raise e, w).
Proof.
  intros H. unfold email_verification_required. now rewrite H.
Qed.

(** *** The call log *)

Lemma traced_run (func : View W) self request args kwargs w (log : list Call) :
  traced func self request args kwargs (w, log)
  = (fst (func self request args kwargs w),
     (snd (func self request args kwargs w),
      log ++ [mkCall self request args kwargs])).
Proof.
  unfold traced; cbn. now destruct (func self request args kwargs w).
Qed.

Lemma traced_log_grows (func : View W) self request args kwargs w
    (log : list Call) o w' :
  traced func self request args kwargs (w, log) <> (o, (w', log)).
Proof.
  rewrite traced_run. intros H. injection H as _ _ H.
  apply (f_equal (@length _)) in H. rewrite length_app in H. cbn in H. lia.
Qed.

(** *** The claims on the decorators *)

(** C1. The view wrapped by [sudo_required] raises [SudoRequired]
    carrying [request.user] exactly when [is_considered_sudo request] is
    false, that is when [request.is_sudo()] is false, [request.auth] is
    neither an [ApiKey] nor an [ApiToken], and the user is not
    (authenticated with an unusable password); otherwise the outcome is the
    wrapped view's. The equivalence is stated for the wrapper's own raise
    (the view is not entered) and for every view whose own outcome at this
    call is not that very exception. *)
Theorem sudo_required_raises_iff_not_considered_sudo
    (func : View W) self request args kwargs w :
  (is_considered_sudo request = false <->
     is_sudo request = false
     /\ isinstance_ApiKey (auth request) = false
     /\ isinstance_ApiToken (auth request) = false
     /\ ~ (is_authenticated (user request) = true
           /\ is_user_password_usable (user request) = false))
  /\ (is_considered_sudo request = false ->
      sudo_required func self request args kwargs w
      = (Raise (SudoRequired (user request)), w))
  /\ (is_considered_sudo request = true ->
      sudo_required func self request args kwargs w
      = func self request args kwargs w)
  /\ (sudo_required (traced func) self request args kwargs (w, [])
      = (Raise (SudoRequired (user request)), (w, []))
      <-> is_considered_sudo request = false)
  /\ (fst (func self request args kwargs w)
      <> Raise (SudoRequired (user request)) ->
      (fst (sudo_required func self request args kwargs w)
       = Raise (SudoRequired (user request))
       <-> is_considered_sudo request = false)).
Proof.
  split; [apply is_considered_sudo_false_iff|].
  split; [apply sudo_required_refused|].
  split; [apply sudo_required_forwards|].
  split.
  - split.
    + destruct (is_considered_sudo request) eqn:Hs; [|reflexivity].
      rewrite sudo_required_forwards by exact Hs. intros H.
      now apply traced_log_grows in H.
    + intros Hs. now rewrite sudo_required_refused.
  - intros Hview. split.
    + destruct (is_considered_sudo request) eqn:Hs; [|reflexivity].
      rewrite sudo_required_forwards by exact Hs. intros H.
      now apply Hview in H.
    + intros Hs. now rewrite sudo_required_refused.
Qed.

(** C2, amended. For a request whose user is authenticated, the view
    wrapped by [email_verification_required] raises
    [EmailVerificationRequired] carrying [request.user] exactly when
    [request.user.get_verified_emails()] is empty; otherwise the outcome is
    the wrapped view's. *)
Theorem email_verification_required_raises_iff_no_verified_email
    (func : View W) self request args kwargs w :
  is_authenticated (user request) = true ->
  (has_verified_email request = Return false <->
     get_verified_emails (user request) = [])
  /\ (get_verified_emails (user request) = [] ->
      email_verification_required func self request args kwargs w
      = (Raise (EmailVerificationRequired (user request)), w))
  /\ (get_verified_emails (user request) <> [] ->
      email_verification_required func self request args kwargs w
      = func self request args kwargs w)
  /\ (email_verification_required (traced func) self request args kwargs
        (w, [])
      = (Raise (EmailVerificationRequired (user request)), (w, []))
      <-> get_verified_emails (user request) = [])
  /\ (fst (func self request args kwargs w)
      <> Raise (EmailVerificationRequired (user request)) ->
      (fst (email_verification_required func self request args kwargs w)
       = Raise (EmailVerificationRequired (user request))
       <-> get_verified_emails (user request) = [])).
Proof.
  intros Ha.
  assert (Hfalse : has_verified_email request = Return false <->
                   get_verified_emails (user request) = []).
  { rewrite has_verified_email_returns, exists_false_iff. tauto. }
  assert (Htrue : get_verified_emails (user request) <> [] ->
                  has_verified_email request = Return true).
  { intros H%exists_true_iff. now apply has_verified_email_returns. }
  split; [exact Hfalse|].
  split.
  { intros H%Hfalse. now apply email_verification_required_refused. }
  split.
  { intros H%Htrue. now apply email_verification_required_forwards. }
  split.
  - split.
    + destruct (get_verified_emails (user request)) as [|x l] eqn:He;
        [reflexivity|].
      rewrite email_verification_required_forwards by (now apply Htrue).
      intros H. now apply traced_log_grows in H.
    + intros Hs%Hfalse. now rewrite email_verification_required_refused.
  - intros Hview. split.
    + destruct (get_verified_emails (user request)) as [|x l] eqn:He;
        [reflexivity|].
      rewrite email_verification_required_forwards by (now apply Htrue).
      intros H. now apply Hview in H.
    + intros Hs%Hfalse. now rewrite email_verification_required_refused.
Qed.

(** C8. Both authorization failures leave the wrapped view as exceptions:
    a failed check yields [Raise], never a returned value; the wrapper
    returns a value only when its check passed and the view returned that
    value; an exception leaving the view, or raised while the check is
    evaluated, is not caught; and stacking the two decorators lets the inner
    failure pass through the outer one. *)
Theorem authorization_failures_propagate
    (func : View W) self request args kwargs w :
  (is_considered_sudo request = false ->
     fst (sudo_required func self request args kwargs w)
     = Raise (SudoRequired (user request))
     /\ forall r, fst (sudo_required func self request args kwargs w)
                  <> Return r)
  /\ (has_verified_email request = Return false ->
      fst (email_verification_required func self request args kwargs w)
      = Raise (EmailVerificationRequired (user request))
      /\ forall r,
           fst (email_verification_required func self request args kwargs w)
           <> Return r)
  /\ (forall r, fst (sudo_required func self request args kwargs w) = Return r ->
      is_considered_sudo request = true
      /\ fst (func self request args kwargs w) = Return r)
  /\ (forall r,
      fst (email_verification_required func self request args kwargs w)
      = Return r ->
      has_verified_email request = Return true
      /\ fst (func self request args kwargs w) = Return r)
  /\ (forall e, fst (func self request args kwargs w) = Raise e ->
      is_raise (fst (sudo_required func self request args kwargs w)) = true
      /\ is_raise
           (fst (email_verification_required func self request args kwargs w))
         = true
      /\ (is_considered_sudo request = true ->
          fst (sudo_required func self request args kwargs w) = Raise e)
      /\ (has_verified_email request = Return true ->
          fst (email_verification_required func self request args kwargs w)
          = Raise e))
  /\ (is_considered_sudo request = true ->
      has_verified_email request = Return false ->
      fst (sudo_required (email_verification_required func)
             self request args kwargs w)
      = Raise (EmailVerificationRequired (user request)))
  /\ (has_verified_email request = Return true ->
      is_considered_sudo request = false ->
      fst (email_verification_required (sudo_required func)
             self request args kwargs w)
      = Raise (SudoRequired (user request)))
  /\ (forall e, has_verified_email request = Raise e ->
      fst (email_verification_required func self request args kwargs w)
      = Raise e
      /\ forall r,
           fst (email_verification_required func self request args kwargs w)
           <> Return r).
Proof.
  destruct (is_considered_sudo request) eqn:Hs;
    destruct (has_verified_email request) as [[|]|e0] eqn:He;
    rewrite ?(sudo_required_forwards _ _ _ _ _ _ Hs),
      ?(sudo_required_refused _ _ _ _ _ _ Hs),
      ?(email_verification_required_forwards _ _ _ _ _ _ He),
      ?(email_verification_required_refused _ _ _ _ _ _ He),
      ?(email_verification_required_check_raises _ _ _ _ _ _ _ He),
      ?(sudo_required_forwards _ _ _ _ _ _ Hs),
      ?(sudo_required_refused _ _ _ _ _ _ Hs);
    cbn [fst];
    repeat match goal with
      | |- _ /\ _ => split
      | |- forall _, _ => intro
      | |- _ <> _ => intro
      | H : fst (func _ _ _ _ _) = _ |- _ => rewrite H
      end;
    try discriminate; try congruence; reflexivity.
Qed.

(** C9. When its check passes a decorator is transparent: the outcome and
    the effects are the view's, and the view receives exactly one call,
    with the same [self], [request], [*args] and [**kwargs]. When the check
    fails, or cannot be evaluated, the view receives no call and the world is
    left as it was. *)
Theorem decorators_transparent_or_view_not_invoked
    (func : View W) self request args kwargs w (log : list Call) :
  (is_considered_sudo request = true ->
     sudo_required func self request args kwargs w
     = func self request args kwargs w
     /\ sudo_required (traced func) self request args kwargs (w, log)
        = (fst (func self request args kwargs w),
           (snd (func self request args kwargs w),
            log ++ [mkCall self request args kwargs])))
  /\ (is_considered_sudo request = false ->
      snd (sudo_required func self request args kwargs w) = w
      /\ sudo_required (traced func) self request args kwargs (w, log)
         = (Raise (SudoRequired (user request)), (w, log)))
  /\ (has_verified_email request = Return true ->
      email_verification_required func self request args kwargs w
      = func self request args kwargs w
      /\ email_verification_required (traced func) self request args kwargs
           (w, log)
         = (fst (func self request args kwargs w),
            (snd (func self request args kwargs w),
             log ++ [mkCall self request args kwargs])))
  /\ (has_verified_email request = Return false ->
      snd (email_verification_required func self request args kwargs w) = w
      /\ email_verification_required (traced func) self request args kwargs
           (w, log)
         = (Raise (EmailVerificationRequired (user request)), (w, log)))
  /\ (forall e, has_verified_email request = Raise e ->
      snd (email_verification_required func self request args kwargs w) = w
      /\ email_verification_required (traced func) self request args kwargs
           (w, log)
         = (Raise e, (w, log))).
Proof.
  split; [|split; [|split; [|split]]]; [intros H..|intros e H]; split.
  - now apply sudo_required_forwards.
  - rewrite sudo_required_forwards by exact H. apply traced_run.
  - now rewrite sudo_required_refused.
  - now apply sudo_required_refused.
  - now apply email_verification_required_forwards.
  - rewrite email_verification_required_forwards by exact H.
    apply traced_run.
  - now rewrite email_verification_required_refused.
  - now apply email_verification_required_refused.
  - now rewrite (email_verification_required_check_raises _ _ _ _ _ _ _ H).
  - now apply email_verification_required_check_raises.
Qed.

(** C10. [is_considered_sudo] groups as
    [is_sudo or ApiKey or ApiToken or (is_authenticated and not usable)];
    hence with no sudo flag and no [ApiKey] / [ApiToken] auth an
    unauthenticated user is not considered sudo, whatever
    [is_user_password_usable] answers. *)
Theorem is_considered_sudo_exempts_only_authenticated request :
  is_considered_sudo request
  = is_considered_sudo_grouped is_user_password_usable request
  /\ (is_authenticated (user request) = false ->
      is_considered_sudo request
      = is_sudo request
        || isinstance_ApiKey (auth request)
        || isinstance_ApiToken (auth request))
  /\ (is_sudo request = false ->
      isinstance_ApiKey (auth request) = false ->
      isinstance_ApiToken (auth request) = false ->
      is_authenticated (user request) = false ->
      is_considered_sudo request = false).
Proof.
  split; [reflexivity|]. split.
  { intros Ha. unfold is_considered_sudo; cbn. rewrite Ha; cbn.
    apply orb_false_r. }
  intros H1 H2 H3 H4. apply is_considered_sudo_false_iff.
  repeat split; try assumption. intros [Ha _]. congruence.
Qed.
End DecoratorFacts.

(** ** The middleware *)

Section MiddlewareFacts.
Context {W MiddlewareSelf : Type}.
Variable BaseSudoMiddleware_has_sudo_privileges :
  MiddlewareSelf -> Request -> W -> outcome bool * W.

Local Abbreviation has_sudo_privileges :=
  (SudoMiddleware.has_sudo_privileges BaseSudoMiddleware_has_sudo_privileges).

Lemma truthy_str_false_iff (p : option string) :
  truthy_str p = false <-> p = None \/ p = Some "".
Proof.
  destruct p as [s|]; cbn.
  - rewrite negb_false_iff, String.eqb_eq. split.
    + intros ->. now right.
    + intros [H|H]; congruence.
  - split; auto.
Qed.

(** C4. [SudoMiddleware.has_sudo_privileges] returns [True] whenever the
    user is authenticated and its password is empty or absent, and in every
    other case does exactly what the base class's method does. *)
Theorem has_sudo_privileges_passwordless_or_base
    (self : MiddlewareSelf) (request : Request) (w : W) :
  (is_authenticated (user request) = true ->
   password (user request) = None \/ password (user request) = Some "" ->
   has_sudo_privileges self request w = (Return true, w))
  /\ (~ (is_authenticated (user request) = true
         /\ (password (user request) = None
             \/ password (user request) = Some "")) ->
      has_sudo_privileges self request w
      = BaseSudoMiddleware_has_sudo_privileges self request w).
Proof.
  unfold has_sudo_privileges; cbn. split.
  - intros Ha Hp%truthy_str_false_iff. now rewrite Ha, Hp.
  - intros Hn. destruct (is_authenticated (user request)) eqn:Ha; cbn;
      [|reflexivity].
    destruct (truthy_str (password (user request))) eqn:Hp; cbn;
      [reflexivity|].
    exfalso. apply Hn. split; [reflexivity|]. now apply truthy_str_false_iff.
Qed.
End MiddlewareFacts.

(** ** The queryset *)

Section QuerySetFacts.
Context {W QS PyVal Result : Type}.

Local Abbreviation Method := (@BaseQuerySet.Method W QS PyVal Result).

Variable QuerySet_getattr : string -> option Method.

Local Abbreviation getattr := (BaseQuerySet.getattr QuerySet_getattr).
Local Abbreviation class_dict := (@BaseQuerySet.class_dict W QS PyVal Result).

Lemma class_dict_lookup (name : string) :
  class_dict !! name
  = if decide (name = "defer") then Some BaseQuerySet.defer
    else if decide (name = "only") then Some BaseQuerySet.only
    else None.
Proof.
  unfold class_dict.
  destruct (decide (name = "defer")) as [->|Hd].
  { now rewrite lookup_insert_eq. }
  rewrite lookup_insert_ne by congruence.
  destruct (decide (name = "only")) as [->|Ho].
  { now rewrite lookup_singleton_eq. }
  now rewrite lookup_singleton_ne by congruence.
Qed.

(** C3. [BaseQuerySet] rebinds exactly the two names [defer] and [only];
    both raise [NotImplementedError] for every argument list, and every
    other attribute, [values] and [values_list] among them, resolves to the
    base class's. *)
Theorem base_query_set_disables_defer_and_only :
  dom class_dict = ({[ "defer"; "only" ]} : gset string)
  /\ (forall name, name = "defer" \/ name = "only" ->
      exists m, getattr name = Some m
        /\ forall self args kwargs w,
             m self args kwargs w
             = (Raise (NotImplementedError BaseQuerySet.message), w))
  /\ (forall name, name <> "defer" -> name <> "only" ->
      getattr name = QuerySet_getattr name)
  /\ getattr "values" = QuerySet_getattr "values"
  /\ getattr "values_list" = QuerySet_getattr "values_list".
Proof.
  split.
  { unfold class_dict. rewrite dom_insert_L, dom_singleton_L. reflexivity. }
  split.
  { intros name [->| ->]; unfold getattr; rewrite class_dict_lookup; cbn.
    - exists BaseQuerySet.defer. split; reflexivity.
    - exists BaseQuerySet.only. split; reflexivity. }
  split.
  { intros name Hd Ho. unfold getattr. rewrite class_dict_lookup.
    now rewrite !decide_False by assumption. }
  split; unfold getattr; now rewrite class_dict_lookup.
Qed.
End QuerySetFacts.

(** ** The tag-values endpoint *)

Section EndpointFacts.
Import GroupTagKeyValues.

(** *** Insertion sort *)

Lemma insert_by_Permutation {A} (precedes : A -> A -> bool) x l :
  Permutation (insert_by precedes x l) (x :: l).
Proof.
  induction l as [|y l IH]; cbn; [reflexivity|].
  destruct (precedes x y); [reflexivity|].
  rewrite IH. apply perm_swap.
Qed.

Lemma sort_by_Permutation {A} (precedes : A -> A -> bool) l :
  Permutation (sort_by precedes l) l.
Proof.
  induction l as [|x l IH]; cbn; [reflexivity|].
  fold (sort_by precedes l). rewrite insert_by_Permutation. now rewrite IH.
Qed.

Section Sorted.
Context {A : Type} (precedes : A -> A -> bool).
Hypothesis precedes_total : forall x y, precedes x y = true \/ precedes y x = true.
Hypothesis precedes_trans :
  forall x y z, precedes x y = true -> precedes y z = true -> precedes x z = true.

Lemma insert_by_sorted x l :
  StronglySorted (fun a b => precedes a b = true) l ->
  StronglySorted (fun a b => precedes a b = true) (insert_by precedes x l).
Proof.
  induction 1 as [|y l Hs IH Hy]; cbn.
  - repeat constructor.
  - destruct (precedes x y) eqn:Hxy.
    + constructor; [now constructor|].
      constructor; [exact Hxy|].
      eapply Forall_impl; [exact Hy|]. intros z Hz. eauto.
    + constructor; [exact IH|].
      rewrite insert_by_Permutation. constructor; [|exact Hy].
      destruct (precedes_total x y); congruence.
Qed.

Lemma sort_by_sorted l :
  StronglySorted (fun a b => precedes a b = true) (sort_by precedes l).
Proof.
  induction l as [|x l IH]; cbn; [constructor|].
  now apply insert_by_sorted.
Qed.
End Sorted.

Lemma StronglySorted_weaken {A} (R S : A -> A -> Prop) l :
  (forall a b, R a b -> S a b) -> StronglySorted R l -> StronglySorted S l.
Proof.
  intros HRS. induction 1 as [|x l Hs IH Hx]; constructor; [exact IH|].
  eapply Forall_impl; [exact Hx|]. auto.
Qed.

(** With [sort=count] the records come in descending occurrence count. *)
Lemma get_sorted_by_count store gid key :
  StronglySorted (fun a b => tv_count b <= tv_count a)
    (data (get store gid key (Some "count"))).
Proof.
  cbn. eapply StronglySorted_weaken; [|apply (sort_by_sorted by_count)].
  - intros a b H. now apply Nat.leb_le in H.
  - intros x y. unfold by_count. rewrite !Nat.leb_le. lia.
  - intros x y z. unfold by_count. rewrite !Nat.leb_le. lia.
Qed.

(** By default the records come most recently seen first. *)
Lemma get_sorted_by_recency store gid key :
  StronglySorted (fun a b => (tv_last_seen b <= tv_last_seen a)%Z)
    (data (get store gid key None)).
Proof.
  cbn. eapply StronglySorted_weaken; [|apply (sort_by_sorted by_recency)].
  - intros a b H. now apply Z.leb_le in H.
  - intros x y. unfold by_recency. rewrite !Z.leb_le. lia.
  - intros x y z. unfold by_recency. rewrite !Z.leb_le. lia.
Qed.

(** *** Occurrences of a tag in an event *)

Lemma occurrence_single_tag gid key val ts :
  occurrence key (mkEvent gid [(key, val)] None ts) = Some (val, None, ts).
Proof. unfold occurrence; cbn. now rewrite String.eqb_refl. Qed.

Lemma occurrence_user gid tags u ts :
  occurrence "user" (mkEvent gid tags (Some u) ts)
  = Some (user_tag_value u, Some (eu_email u), ts).
Proof. reflexivity. Qed.

Lemma user_tag_value_inj u1 u2 :
  user_tag_value u1 = user_tag_value u2 -> eu_id u1 = eu_id u2.
Proof.
  unfold user_tag_value. intros H.
  apply (inj (String.append "id:")) in H. now apply (inj pretty) in H.
Qed.

(** *** The orders of three stored events *)

Lemma Permutation_three {A} (a b c : A) l :
  Permutation l [a; b; c] ->
  l = [a; b; c] \/ l = [a; c; b] \/ l = [b; a; c]
  \/ l = [b; c; a] \/ l = [c; a; b] \/ l = [c; b; a].
Proof.
  intros H. apply Permutation_cons_inv_r in H as (k1 & k2 & -> & H).
  apply Permutation_length_2_inv in H.
  destruct k1 as [|x [|y [|z k1]]]; cbn in H;
    destruct H as [H|H]; try discriminate H; simplify_eq/=; tauto.
Qed.

(** *** Counting three occurrences of two values *)

Lemma count_sort_three_occurrences
    (v1 v2 : string) (em1 em2 : option string) (t1 t1' t2 : Z) occs :
  v1 <> v2 ->
  Permutation occs [(v1, em1, t1); (v1, em1, t1'); (v2, em2, t2)] ->
  let rs := sort_by by_count (aggregate occs) in
  map tv_value rs = [v1; v2]
  /\ map tv_email rs = [em1; em2]
  /\ map tv_count rs = [2; 1].
Proof.
  intros Hne Hperm.
  assert (H12 : String.eqb v1 v2 = false) by now apply String.eqb_neq.
  assert (H21 : String.eqb v2 v1 = false)
    by (apply String.eqb_neq; congruence).
  apply Permutation_three in Hperm.
  destruct Hperm as [->|[->|[->|[->|[->| ->]]]]]; cbn;
    rewrite ?String.eqb_refl, ?H12, ?H21; cbn;
    rewrite ?String.eqb_refl, ?H12, ?H21; cbn;
    repeat split; reflexivity.
Qed.

(** *** The claims on the endpoint *)

(** C5. For a group whose only stored event carries one tag, the endpoint
    answers 200 with exactly one record, whose [value] is the stored tag
    value. *)
Theorem single_tagged_event_yields_its_value
    (store : list Event) gid key val ts sort :
  events_of_group gid store = [mkEvent gid [(key, val)] None ts] ->
  status_code (get store gid key sort) = 200
  /\ exists r, data (get store gid key sort) = [r] /\ tv_value r = val.
Proof.
  intros Hg. split; [reflexivity|].
  unfold get; cbn. rewrite Hg. unfold occurrences; cbn.
  rewrite occurrence_single_tag; cbn. eexists; split; reflexivity.
Qed.

(** C6. For an event stored with a user context having an id and an email,
    the [user] tag yields a single record whose [value] is [id:<user_id>]
    and whose [email] is the user's email. *)
Theorem user_tag_yields_id_and_email
    (store : list Event) gid tags u ts sort :
  events_of_group gid store = [mkEvent gid tags (Some u) ts] ->
  status_code (get store gid "user" sort) = 200
  /\ exists r, data (get store gid "user" sort) = [r]
       /\ tv_value r = ("id:" ++ pretty (eu_id u))%string
       /\ tv_email r = Some (eu_email u).
Proof.
  intros Hg. split; [reflexivity|].
  unfold get; cbn. rewrite Hg.
  change (occurrences "user" [mkEvent gid tags (Some u) ts])
    with [(user_tag_value u, Some (eu_email u), ts)].
  eexists; repeat split; reflexivity.
Qed.

(** C7. When two stored events share one user identity and a third carries
    a different one, whatever the order in which they were stored,
    [sort=count] returns the two identities in descending occurrence count,
    the identity seen twice first. *)
Theorem count_sort_puts_frequent_identity_first
    (store : list Event) gid u1 u2 tags1 tags1' tags2 t1 t1' t2 :
  eu_id u1 <> eu_id u2 ->
  Permutation (events_of_group gid store)
    [mkEvent gid tags1 (Some u1) t1; mkEvent gid tags1' (Some u1) t1';
     mkEvent gid tags2 (Some u2) t2] ->
  let response := get store gid "user" (Some "count") in
  status_code response = 200
  /\ map tv_value (data response) = [user_tag_value u1; user_tag_value u2]
  /\ map tv_email (data response) = [Some (eu_email u1); Some (eu_email u2)]
  /\ map tv_count (data response) = [2; 1]
  /\ StronglySorted (fun a b => tv_count b <= tv_count a) (data response).
Proof.
  intros Hid Hperm response. split; [reflexivity|].
  assert (Hoccs : Permutation
            (occurrences "user" (events_of_group gid store))
            [(user_tag_value u1, Some (eu_email u1), t1);
             (user_tag_value u1, Some (eu_email u1), t1');
             (user_tag_value u2, Some (eu_email u2), t2)]).
  { unfold occurrences. rewrite Hperm. reflexivity. }
  apply count_sort_three_occurrences in Hoccs.
  - destruct Hoccs as (Hv & He & Hc). repeat split; try assumption.
    apply get_sorted_by_count.
  - intros Heq. now apply Hid, user_tag_value_inj.
Qed.
End EndpointFacts.

(** ** Worked instances *)

Section Instances.
Import TestData GroupTagKeyValues.

(** A session without the sudo flag is refused, one with it reaches the
    view. *)
Lemma sudo_required_raises_iff_not_considered_sudo_witness :
  sudo_required password_usable ok_view tt plain_request [] [] 0
  = (Raise (SudoRequired alice), 0)
  /\ sudo_required password_usable ok_view tt sudo_request [] [] 0
     = (Return "ok", 1).
Proof.
  destruct (sudo_required_raises_iff_not_considered_sudo
              password_usable ok_view tt plain_request [] [] 0)
    as (_ & Hrefused & _).
  destruct (sudo_required_raises_iff_not_considered_sudo
              password_usable ok_view tt sudo_request [] [] 0)
    as (_ & _ & Hforwards & _).
  split; [apply Hrefused; reflexivity | rewrite Hforwards; reflexivity].
Defined.

(** A view that raises [SudoRequired] on its own is forwarded like any
    other outcome: the exception then comes from the view, with the check
    passed. *)
Remark sudo_required_forwards_view_exception :
  is_considered_sudo password_usable sudo_request = true
  /\ sudo_required password_usable strict_view tt sudo_request [] [] 0
     = (Raise (SudoRequired alice), 0)
  /\ sudo_required password_usable (traced strict_view) tt sudo_request
       [] [] (0, [])
     = (Raise (SudoRequired alice), (0, [mkCall tt sudo_request [] []])).
Proof. repeat split. Qed.

Lemma email_verification_required_raises_iff_no_verified_email_witness :
  email_verification_required verified_emails ok_view tt bob_request [] [] 0
  = (Raise (EmailVerificationRequired bob), 0)
  /\ email_verification_required verified_emails ok_view tt plain_request
       [] [] 0
     = (Return "ok", 1).
Proof.
  destruct (email_verification_required_raises_iff_no_verified_email
              verified_emails ok_view tt bob_request [] [] 0)
    as (_ & Hrefused & _); [reflexivity|].
  destruct (email_verification_required_raises_iff_no_verified_email
              verified_emails ok_view tt plain_request [] [] 0)
    as (_ & _ & Hforwards & _); [reflexivity|].
  split; [apply Hrefused; reflexivity|].
  rewrite Hforwards; [reflexivity | discriminate].
Defined.

(** The request of a user who is not authenticated: the account has no
    verified email, yet the wrapper raises neither
    [EmailVerificationRequired] nor gives the view's outcome; the call of
    [get_verified_emails] itself fails with [AttributeError]. So "raises
    [EmailVerificationRequired] exactly when there is no verified email,
    otherwise the view's result" does not hold of every request. *)
Lemma email_verification_required_unauthenticated_counterexample :
  verified_emails (user anonymous_request) = []
  /\ email_verification_required verified_emails ok_view tt anonymous_request
       [] [] 0
     = (Raise (OtherException "AttributeError"), 0)
  /\ ~ ((fst (email_verification_required verified_emails ok_view tt
                anonymous_request [] [] 0)
         = Raise (EmailVerificationRequired (user anonymous_request))
         <-> verified_emails (user anonymous_request) = [])
        /\ (fst (email_verification_required verified_emails ok_view tt
                   anonymous_request [] [] 0)
            <> Raise (EmailVerificationRequired (user anonymous_request)) ->
            email_verification_required verified_emails ok_view tt
              anonymous_request [] [] 0
            = ok_view tt anonymous_request [] [] 0)).
Proof.
  split; [reflexivity|]. split; [reflexivity|].
  intros [_ Hotherwise].
  assert (H : (Raise (OtherException "AttributeError"), 0)
              = (@Return string "ok", 1)).
  { apply Hotherwise. cbn. discriminate. }
  discriminate H.
Defined.

Lemma authorization_failures_propagate_witness :
  fst (sudo_required password_usable ok_view tt plain_request [] [] 0)
  = Raise (SudoRequired alice)
  /\ fst (sudo_required password_usable
            (email_verification_required verified_emails ok_view)
            tt bob_request [] [] 0)
     = Raise (EmailVerificationRequired bob).
Proof.
  destruct (authorization_failures_propagate password_usable verified_emails
              ok_view tt plain_request [] [] 0) as (Hsudo & _).
  destruct (authorization_failures_propagate password_usable verified_emails
              ok_view tt bob_request [] [] 0)
    as (_ & _ & _ & _ & _ & Hstacked & _).
  split; [apply Hsudo; reflexivity | apply Hstacked; reflexivity].
Defined.

Lemma decorators_transparent_or_view_not_invoked_witness :
  sudo_required password_usable (traced ok_view) tt token_request
    [7%Z] [("page", 2%Z)] (0, [])
  = (Return "ok", (1, [mkCall tt token_request [7%Z] [("page", 2%Z)]]))
  /\ sudo_required password_usable (traced ok_view) tt plain_request
       [7%Z] [("page", 2%Z)] (0, [])
     = (Raise (SudoRequired alice), (0, [])).
Proof.
  destruct (decorators_transparent_or_view_not_invoked password_usable
              verified_emails ok_view tt token_request
              [7%Z] [("page", 2%Z)] 0 [])
    as (Hpass & _).
  destruct (decorators_transparent_or_view_not_invoked password_usable
              verified_emails ok_view tt plain_request
              [7%Z] [("page", 2%Z)] 0 [])
    as (_ & Hfail & _).
  split; [apply Hpass; reflexivity | apply Hfail; reflexivity].
Defined.

Lemma is_considered_sudo_exempts_only_authenticated_witness :
  is_considered_sudo password_usable anonymous_request = false
  /\ is_considered_sudo (fun _ => false) anonymous_request = false.
Proof.
  split;
    apply is_considered_sudo_exempts_only_authenticated; reflexivity.
Defined.

(** The grouping matters: with [(a or b or c or d) and not e] a sudo
    session of a user with a usable password would be refused. *)
Remark is_considered_sudo_misgrouped_differs :
  is_considered_sudo password_usable sudo_request = true
  /\ is_considered_sudo_misgrouped password_usable sudo_request = false.
Proof. split; reflexivity. Qed.

(** The passwordless exemption itself. *)
Remark is_considered_sudo_passwordless :
  is_considered_sudo password_usable sso_request = true.
Proof. reflexivity. Qed.

Lemma has_sudo_privileges_passwordless_or_base_witness :
  SudoMiddleware.has_sudo_privileges base_has_sudo_privileges tt sso_request 0
  = (Return true, 0)
  /\ SudoMiddleware.has_sudo_privileges base_has_sudo_privileges tt
       plain_request 0
     = base_has_sudo_privileges tt plain_request 0.
Proof.
  destruct (has_sudo_privileges_passwordless_or_base
              base_has_sudo_privileges tt sso_request 0) as (Htrue & _).
  destruct (has_sudo_privileges_passwordless_or_base
              base_has_sudo_privileges tt plain_request 0) as (_ & Hbase).
  split; [apply Htrue; [reflexivity | right; reflexivity]|].
  apply Hbase. intros [_ [H|H]]; discriminate H.
Defined.

Lemma base_query_set_disables_defer_and_only_witness :
  (exists m, BaseQuerySet.getattr base_getattr "defer" = Some m
     /\ m tt [] [] 0
        = (Raise (NotImplementedError
                    "Use ``values_list`` instead [performance]."), 0))
  /\ BaseQuerySet.getattr base_getattr "values_list"
     = base_getattr "values_list".
Proof.
  destruct (base_query_set_disables_defer_and_only base_getattr)
    as (_ & Hraise & _ & _ & Hvalues_list).
  split; [|exact Hvalues_list].
  destruct (Hraise "defer" (or_introl eq_refl)) as (m & Hm & Hcall).
  exists m. split; [exact Hm | apply Hcall].
Defined.

(** The three tests of the endpoint. *)
Example test_simple :
  get [simple_event] 1 "foo" None
  = mkApiResponse 200 [mkTagValue "bar" None 1 ts0].
Proof. reflexivity. Qed.

Example test_user_tag :
  get [foo_event] 1 "user" None
  = mkApiResponse 200 [mkTagValue "id:1" (Some "foo@example.com") 1 ts0].
Proof. reflexivity. Qed.

Example test_count_sort :
  get [foo_event; foo_event; bar_event] 1 "user" (Some "count")
  = mkApiResponse 200
      [mkTagValue "id:1" (Some "foo@example.com") 2 ts0;
       mkTagValue "id:2" (Some "bar@example.com") 1 ts0].
Proof. reflexivity. Qed.

(** The order of storage does not matter, and other groups are ignored. *)
Example test_count_sort_other_order :
  map tv_value
    (data (get [bar_event; mkEvent 9 [] (Some bar_user) ts0; foo_event;
                foo_event] 1 "user" (Some "count")))
  = ["id:1"; "id:2"].
Proof. reflexivity. Qed.

Lemma single_tagged_event_yields_its_value_witness :
  status_code (get [simple_event] 1 "foo" None) = 200
  /\ exists r, data (get [simple_event] 1 "foo" None) = [r]
       /\ tv_value r = "bar".
Proof.
  apply (single_tagged_event_yields_its_value [simple_event] 1 "foo" "bar"
           ts0 None).
  reflexivity.
Defined.

Lemma user_tag_yields_id_and_email_witness :
  status_code (get [foo_event] 1 "user" None) = 200
  /\ exists r, data (get [foo_event] 1 "user" None) = [r]
       /\ tv_value r = "id:1"
       /\ tv_email r = Some "foo@example.com".
Proof.
  apply (user_tag_yields_id_and_email [foo_event] 1 [] foo_user ts0 None).
  reflexivity.
Defined.

Lemma count_sort_puts_frequent_identity_first_witness :
  map tv_value
    (data (get [foo_event; foo_event; bar_event] 1 "user" (Some "count")))
  = ["id:1"; "id:2"]
  /\ map tv_count
       (data (get [foo_event; foo_event; bar_event] 1 "user" (Some "count")))
     = [2; 1].
Proof.
  destruct (count_sort_puts_frequent_identity_first
              [foo_event; foo_event; bar_event] 1 foo_user bar_user
              [] [] [] ts0 ts0 ts0) as (_ & Hvalues & _ & Hcounts & _).
  - cbn. lia.
  - reflexivity.
  - split; [exact Hvalues | exact Hcounts].
Defined.
End Instances.


(** * Further properties of the code *)

(** ** Stacking and repeating the decorators *)

Section DecoratorComposition.
Context {W ViewSelf PyVal Response : Type}.
Variable is_user_password_usable : User -> bool.
Variable get_verified_emails : User -> list UserEmail.

Local Abbreviation View := (@View ViewSelf PyVal Response).
Local Abbreviation Call := (@Call ViewSelf PyVal).
Local Abbreviation is_considered_sudo := (is_considered_sudo is_user_password_usable).
Local Abbreviation sudo_required := (sudo_required is_user_password_usable).
Local Abbreviation email_verification_required :=
  (email_verification_required get_verified_emails).
Local Abbreviation has_verified_email :=
  (has_verified_email get_verified_emails).

Implicit Types (request : Request) (self : ViewSelf).

Lemma is_considered_sudo_api_auth request :
  isinstance_ApiKey (auth request) = true
  \/ isinstance_ApiToken (auth request) = true ->
  is_considered_sudo request = true.
Proof.
  unfold is_considered_sudo. intros [H|H]; rewrite H; cbn.
  - now rewrite orb_true_r.
  - now rewrite orb_true_r.
Qed.

(** X1. "If we are already authenticated through an API key we do not care
    about the sudo flag" (lines 24-25): with an [ApiKey] or an [ApiToken] as
    [request.auth] the decorated view is the view itself, whatever the sudo
    flag, the user and the answer of [is_user_password_usable]; the view is
    entered once. *)
Theorem api_auth_bypasses_sudo_check
    (func : View W) self request args kwargs w (log : list Call) :
  isinstance_ApiKey (auth request) = true
  \/ isinstance_ApiToken (auth request) = true ->
  sudo_required func self request args kwargs w
  = func self request args kwargs w
  /\ snd (snd (sudo_required (traced func) self request args kwargs (w, log)))
     = log ++ [mkCall self request args kwargs].
Proof.
  intros Hs%is_considered_sudo_api_auth. split.
  - now apply sudo_required_forwards.
  - rewrite sudo_required_forwards by exact Hs. now rewrite traced_run.
Qed.

(** X2. Decorating twice is decorating once: a second layer of the same
    decorator changes neither the outcome, nor the effects, nor the number of
    times the view is entered. *)
Theorem decorators_idempotent
    (func : View W) self request args kwargs w (log : list Call) :
  sudo_required (sudo_required func) self request args kwargs w
  = sudo_required func self request args kwargs w
  /\ email_verification_required (email_verification_required func)
       self request args kwargs w
     = email_verification_required func self request args kwargs w
  /\ sudo_required (sudo_required (traced func)) self request args kwargs
       (w, log)
     = sudo_required (traced func) self request args kwargs (w, log)
  /\ email_verification_required (email_verification_required (traced func))
       self request args kwargs (w, log)
     = email_verification_required (traced func) self request args kwargs
         (w, log).
Proof.
  destruct (is_considered_sudo request) eqn:Hs;
    destruct (has_verified_email request) as [[|]|e] eqn:He;
    rewrite ?(sudo_required_forwards _ _ _ _ _ _ _ Hs),
      ?(sudo_required_refused _ _ _ _ _ _ _ Hs),
      ?(email_verification_required_forwards _ _ _ _ _ _ _ He),
      ?(email_verification_required_refused _ _ _ _ _ _ _ He),
      ?(email_verification_required_check_raises _ _ _ _ _ _ _ _ He);
    repeat split; reflexivity.
Qed.

(** X3. The two ways of stacking the decorators. The view is reached exactly
    when both checks pass, and then both stacks are the view; the stacks
    agree as soon as one check passes; when both checks fail the outer
    decorator's error is the one raised, so the stacks differ; and in no case
    is the view entered more than once. *)
Theorem stacked_decorators_outer_check_wins
    (func : View W) self request args kwargs w (log : list Call) :
  (is_considered_sudo request = true ->
   has_verified_email request = Return true ->
   sudo_required (email_verification_required func) self request args kwargs w
   = func self request args kwargs w
   /\ email_verification_required (sudo_required func)
        self request args kwargs w
      = func self request args kwargs w)
  /\ (is_considered_sudo request = true
      \/ has_verified_email request = Return true ->
      sudo_required (email_verification_required func)
        self request args kwargs w
      = email_verification_required (sudo_required func)
          self request args kwargs w)
  /\ (is_considered_sudo request = false ->
      has_verified_email request = Return false ->
      sudo_required (email_verification_required func)
        self request args kwargs w
      = (Raise (SudoRequired (user request)), w)
      /\ email_verification_required (sudo_required func)
           self request args kwargs w
         = (Raise (EmailVerificationRequired (user request)), w))
  /\ (snd (snd (sudo_required (email_verification_required (traced func))
                  self request args kwargs (w, log)))
      = (if is_considered_sudo request
            && returns_true (has_verified_email request)
         then log ++ [mkCall self request args kwargs] else log))
  /\ (snd (snd (email_verification_required (sudo_required (traced func))
                  self request args kwargs (w, log)))
      = (if is_considered_sudo request
            && returns_true (has_verified_email request)
         then log ++ [mkCall self request args kwargs] else log)).
Proof.
  destruct (is_considered_sudo request) eqn:Hs;
    destruct (has_verified_email request) as [[|]|e] eqn:He;
    cbn [andb returns_true];
    repeat match goal with
      | |- _ /\ _ => split
      | |- _ -> _ => intro
      | H : _ \/ _ |- _ => destruct H
      | H : true = false |- _ => discriminate H
      | H : false = true |- _ => discriminate H
      | H : Return _ = Return _ |- _ => discriminate H
      | H : Raise _ = Return _ |- _ => discriminate H
      end;
    rewrite ?(sudo_required_forwards _ _ _ _ _ _ _ Hs),
      ?(sudo_required_refused _ _ _ _ _ _ _ Hs),
      ?(email_verification_required_forwards _ _ _ _ _ _ _ He),
      ?(email_verification_required_refused _ _ _ _ _ _ _ He),
      ?(email_verification_required_check_raises _ _ _ _ _ _ _ _ He),
      ?(sudo_required_forwards _ _ _ _ _ _ _ Hs),
      ?(sudo_required_refused _ _ _ _ _ _ _ Hs),
      ?traced_run;
    reflexivity.
Qed.
End DecoratorComposition.

(** ** What the middleware override can and cannot change *)

Section MiddlewareMonotone.
Context {W MiddlewareSelf : Type}.
Variable BaseSudoMiddleware_has_sudo_privileges :
  MiddlewareSelf -> Request -> W -> outcome bool * W.

Local Abbreviation has_sudo_privileges :=
  (SudoMiddleware.has_sudo_privileges BaseSudoMiddleware_has_sudo_privileges).

Lemma has_sudo_privileges_cases
    (self : MiddlewareSelf) (request : Request) (w : W) :
  has_sudo_privileges self request w = (Return true, w)
  /\ is_authenticated (user request) = true
  /\ truthy_str (password (user request)) = false
  \/ has_sudo_privileges self request w
     = BaseSudoMiddleware_has_sudo_privileges self request w
     /\ (is_authenticated (user request) = false
         \/ truthy_str (password (user request)) = true).
Proof.
  unfold has_sudo_privileges; cbn.
  destruct (is_authenticated (user request)); cbn; [|right; auto].
  destruct (truthy_str (password (user request))); cbn; [right|left]; auto.
Qed.

(** X4. The override only adds privileges: what the base class grants stays
    granted, a denial or an exception is always the base class's own answer
    (with its effects), and for a user who is not authenticated the override
    is the base method, whatever the password field holds. *)
Theorem has_sudo_privileges_only_adds
    (self : MiddlewareSelf) (request : Request) (w : W) :
  (fst (BaseSudoMiddleware_has_sudo_privileges self request w) = Return true ->
   fst (has_sudo_privileges self request w) = Return true)
  /\ (fst (has_sudo_privileges self request w) <> Return true ->
      has_sudo_privileges self request w
      = BaseSudoMiddleware_has_sudo_privileges self request w)
  /\ (is_authenticated (user request) = false ->
      has_sudo_privileges self request w
      = BaseSudoMiddleware_has_sudo_privileges self request w)
  /\ (snd (has_sudo_privileges self request w)
      <> snd (BaseSudoMiddleware_has_sudo_privileges self request w) ->
      has_sudo_privileges self request w = (Return true, w)).
Proof.
  destruct (has_sudo_privileges_cases self request w)
    as [(Hr & Ha & Hp)|(Hr & Hu)]; rewrite Hr; cbn.
  - repeat split; try reflexivity; try congruence.
  - repeat split; try reflexivity; try congruence.
Qed.
End MiddlewareMonotone.

(** ** What the queryset subclass can and cannot change *)

Section QuerySetShadowing.
Context {W QS PyVal Result : Type}.

Local Abbreviation Method := (@BaseQuerySet.Method W QS PyVal Result).
Local Abbreviation getattr := (@BaseQuerySet.getattr W QS PyVal Result).

(** X5. The subclass hides nothing and depends on nothing for its two
    methods: a name resolves on [BaseQuerySet] exactly when it is [defer],
    [only] or resolves on the base class; [defer] and [only] resolve to the
    same raising methods over every base class, shadowing the base class's
    own; and what they resolve to leaves the world untouched. *)
Theorem base_query_set_hides_nothing
    (QuerySet_getattr QuerySet_getattr' : string -> option Method)
    (name : string) :
  (is_Some (getattr QuerySet_getattr name) <->
     name = "defer" \/ name = "only" \/ is_Some (QuerySet_getattr name))
  /\ (name = "defer" \/ name = "only" ->
      getattr QuerySet_getattr name = getattr QuerySet_getattr' name
      /\ forall m self args kwargs w,
           getattr QuerySet_getattr name = Some m ->
           m self args kwargs w
           = (Raise (NotImplementedError BaseQuerySet.message), w)).
Proof.
  unfold getattr. rewrite !class_dict_lookup. split.
  - destruct (decide (name = "defer")) as [->|Hd].
    { split; [auto | intros _; now eexists]. }
    destruct (decide (name = "only")) as [->|Ho].
    { split; [auto | intros _; now eexists]. }
    split; [auto | intros [?|[?|?]]; [contradiction..|assumption]].
  - intros [-> | ->]; cbn; (split; [reflexivity|]);
      intros m self args kwargs w [= <-]; reflexivity.
Qed.
End QuerySetShadowing.

(** ** Worked instances, continued *)

Section MoreInstances.
Import TestData.

Lemma api_auth_bypasses_sudo_check_witness :
  sudo_required password_usable ok_view tt token_request [] [] 0
  = (Return "ok", 1)
  /\ snd (snd (sudo_required password_usable (traced ok_view) tt token_request
                 [] [] (0, [])))
     = [mkCall tt token_request [] []].
Proof.
  destruct (api_auth_bypasses_sudo_check password_usable ok_view tt
              token_request [] [] 0 []) as (Hview & Hlog).
  - right. reflexivity.
  - split; [rewrite Hview; reflexivity | exact Hlog].
Defined.

Lemma stacked_decorators_outer_check_wins_witness :
  sudo_required password_usable
    (email_verification_required verified_emails ok_view)
    tt (mkRequest false AuthNone bob) [] [] 0
  = (Raise (SudoRequired bob), 0)
  /\ email_verification_required verified_emails
       (sudo_required password_usable ok_view)
       tt (mkRequest false AuthNone bob) [] [] 0
     = (Raise (EmailVerificationRequired bob), 0).
Proof.
  destruct (stacked_decorators_outer_check_wins password_usable
              verified_emails ok_view tt (mkRequest false AuthNone bob)
              [] [] 0 []) as (_ & _ & Hboth & _).
  apply Hboth; reflexivity.
Defined.

Lemma has_sudo_privileges_only_adds_witness :
  SudoMiddleware.has_sudo_privileges failing_has_sudo_privileges tt
    anonymous_request 0
  = (Raise (OtherException "SuspiciousOperation"), 1)
  /\ fst (SudoMiddleware.has_sudo_privileges base_has_sudo_privileges tt
            sudo_request 0)
     = Return true.
Proof.
  destruct (has_sudo_privileges_only_adds failing_has_sudo_privileges tt
              anonymous_request 0) as (_ & _ & Hanonymous & _).
  destruct (has_sudo_privileges_only_adds base_has_sudo_privileges tt
              sudo_request 0) as (Hgranted & _).
  split; [rewrite Hanonymous; reflexivity | apply Hgranted; reflexivity].
Defined.

Lemma base_query_set_hides_nothing_witness :
  BaseQuerySet.getattr base_getattr "defer"
  = BaseQuerySet.getattr bare_getattr "defer"
  /\ is_Some (BaseQuerySet.getattr base_getattr "values").
Proof.
  destruct (base_query_set_hides_nothing base_getattr bare_getattr "defer")
    as (_ & Hshadow).
  destruct (base_query_set_hides_nothing base_getattr bare_getattr "values")
    as (Hdefined & _).
  split.
  - apply Hshadow. left. reflexivity.
  - apply Hdefined. right. right. now eexists.
Defined.
End MoreInstances.
